(** * Temporal triples over versioned OSM objects

    A shallow embedding of [osmium::DiffObject] and [osmium::DiffObjectDerived]
    (libosmium, [include/osmium/osm/diff_object.hpp]) in a checked build, i.e.
    with every [assert] of the header compiled in.

    A [DiffObject] stores three raw pointers into storage it does not own.
    The embedding keeps that shape: objects live in a store indexed by
    addresses, a pointer is either [nullptr] or an address, and the queries
    [first] and [last] compare addresses, never object contents. *)

From Stdlib Require Import ZArith Bool Lia.

Local Open Scope Z_scope.

(** ** Outcome of a call in a checked build

    A member function either returns a value or stops the program at a
    failed [assert]. *)

Inductive checked (A : Type) : Type :=
| Value (a : A)
| AssertionFailure.

Arguments Value {A} a.
Arguments AssertionFailure {A}.

Definition bind {A B : Type} (m : checked A) (k : A -> checked B) : checked B :=
  match m with
  | Value a => k a
  | AssertionFailure => AssertionFailure
  end.

Declare Scope checked_scope.
Delimit Scope checked_scope with checked.

Notation "x <- m ;; k" := (bind m (fun x => k))
  (at level 61, m at next level, right associativity) : checked_scope.
Notation "m ;;; k" := (bind m (fun _ => k))
  (at level 61, right associativity) : checked_scope.

Local Open Scope checked_scope.

(** [assert(b)] *)
Definition assert (b : bool) : checked unit :=
  if b then Value tt else AssertionFailure.

(** [a && b] on calls that may stop at an assertion: [b] is only evaluated
    when [a] returned [true]. *)
Definition and_then (a b : checked bool) : checked bool :=
  x <- a ;; if x then b else Value false.

(** [a || b], with [b] only evaluated when [a] returned [false]. *)
Definition or_else (a b : checked bool) : checked bool :=
  x <- a ;; if x then Value true else b.

(** The call returned (no assertion fired). *)
Definition returns {A : Type} (m : checked A) : bool :=
  match m with
  | Value _ => true
  | AssertionFailure => false
  end.

(** ** The objects a triple points to *)

(** Modelled from the spec: [osmium/osm/item_type.hpp] is not among the
    sources; the type tag of a versioned entity ranges over node, way and
    relation. *)
Inductive item_type : Type :=
| node
| way
| relation.

Definition item_type_eqb (a b : item_type) : bool :=
  match a, b with
  | node, node | way, way | relation, relation => true
  | _, _ => false
  end.

(** Modelled from the spec: [osmium/osm/timestamp.hpp] is not among the
    sources.  A timestamp is a number of seconds held in an unsigned 32-bit
    field, compared as that number; the "end of time" sentinel is the maximum
    representable instant. *)
Definition Timestamp : Type := Z.

Definition Timestamp_bits : Z := 32.

Definition representable (t : Timestamp) : Prop :=
  0 <= t < 2 ^ Timestamp_bits.

Definition end_of_time : Timestamp := 2 ^ Timestamp_bits - 1.

(** Modelled from the spec: a real timestamp is one the data source can
    produce, that is any representable instant other than the sentinel. *)
Definition real_timestamp (t : Timestamp) : Prop :=
  representable t /\ t <> end_of_time.

(** Modelled from the spec: [osmium/osm/timestamp.hpp] is not among the
    sources.  An integer number of seconds stored into the 32-bit field is
    reduced modulo [2 ^ 32]; this is how [start_time() + 1] and
    [start_time() - 1] become timestamps. *)
Definition Timestamp_of_integer (z : Z) : Timestamp :=
  z mod 2 ^ Timestamp_bits.

(** Modelled from the spec: [osmium/osm/object.hpp] is not among the sources.
    The fields of a versioned entity that the triple reads. *)
Module OSMObject.

Record t : Type := mk {
  type : item_type;
  id : Z;
  version : Z;
  changeset : Z;
  timestamp : Timestamp;
  visible : bool
}.

End OSMObject.

(** ** Storage and pointers *)

(** Address of an object. *)
Definition loc : Type := positive.

(** The objects the references of a call designate: a C++ reference always
    designates an object, so reading through an address is total. *)
Definition store : Type := loc -> OSMObject.t.

(** [const osmium::OSMObject*]: [None] is [nullptr]. *)
Definition ptr : Type := option loc.

Definition nullptr : ptr := None.

(** ** [class DiffObject] *)

Module DiffObject.

Record t : Type := mk {
  m_prev : ptr;
  m_curr : ptr;
  m_next : ptr
}.

(** [DiffObject() noexcept = default;] with the member initialisers
    [= nullptr]. *)
Definition default : t :=
  {| m_prev := nullptr; m_curr := nullptr; m_next := nullptr |}.

(** [DiffObject(prev, curr, next)]: the three addresses are stored, then the
    two assertions of the constructor body run in order. *)
Definition new (st : store) (prev curr next : loc) : checked t :=
  let this := {| m_prev := Some prev; m_curr := Some curr; m_next := Some next |} in
  assert (item_type_eqb (OSMObject.type (st prev)) (OSMObject.type (st curr))
          && item_type_eqb (OSMObject.type (st curr)) (OSMObject.type (st next))) ;;;
  assert ((OSMObject.id (st prev) =? OSMObject.id (st curr))
          && (OSMObject.id (st curr) =? OSMObject.id (st next))) ;;;
  Value this.

(** [empty()]: [m_prev == nullptr]. *)
Definition empty (d : t) : bool :=
  match m_prev d with
  | None => true
  | Some _ => false
  end.

(** [assert(m_prev && m_curr && m_next)], handing the three addresses to the
    code after the assertion. *)
Definition assert_pointers (d : t) : checked (loc * loc * loc) :=
  match m_prev d, m_curr d, m_next d with
  | Some p, Some c, Some n => Value (p, c, n)
  | _, _, _ => AssertionFailure
  end.

(** [prev()]: [*m_prev]. *)
Definition prev (d : t) : checked loc :=
  a <- assert_pointers d ;; let '(p, _, _) := a in Value p.

(** [curr()]: [*m_curr]. *)
Definition curr (d : t) : checked loc :=
  a <- assert_pointers d ;; let '(_, c, _) := a in Value c.

(** [next()]: [*m_next]. *)
Definition next (d : t) : checked loc :=
  a <- assert_pointers d ;; let '(_, _, n) := a in Value n.

(** [first()]: [m_prev == m_curr], a comparison of pointers. *)
Definition first (d : t) : checked bool :=
  a <- assert_pointers d ;; let '(p, c, _) := a in Value (Pos.eqb p c).

(** [last()]: [m_curr == m_next], a comparison of pointers. *)
Definition last (d : t) : checked bool :=
  a <- assert_pointers d ;; let '(_, c, n) := a in Value (Pos.eqb c n).

(** [type()]: [m_curr->type()]. *)
Definition type (st : store) (d : t) : checked item_type :=
  a <- assert_pointers d ;; let '(_, c, _) := a in Value (OSMObject.type (st c)).

(** [id()]: [m_curr->id()]. *)
Definition id (st : store) (d : t) : checked Z :=
  a <- assert_pointers d ;; let '(_, c, _) := a in Value (OSMObject.id (st c)).

(** [version()]: [m_curr->version()]. *)
Definition version (st : store) (d : t) : checked Z :=
  a <- assert_pointers d ;; let '(_, c, _) := a in Value (OSMObject.version (st c)).

(** [changeset()]: [m_curr->changeset()]. *)
Definition changeset (st : store) (d : t) : checked Z :=
  a <- assert_pointers d ;; let '(_, c, _) := a in Value (OSMObject.changeset (st c)).

(** [start_time()]: [m_curr->timestamp()]. *)
Definition start_time (st : store) (d : t) : checked Timestamp :=
  a <- assert_pointers d ;; let '(_, c, _) := a in Value (OSMObject.timestamp (st c)).

(** [end_time()]: [last() ? osmium::end_of_time() : m_next->timestamp()]. *)
Definition end_time (st : store) (d : t) : checked Timestamp :=
  a <- assert_pointers d ;;
  let '(_, _, n) := a in
  l <- last d ;;
  Value (if l then end_of_time else OSMObject.timestamp (st n)).

(** [is_between(from, to)]:
    [start_time() < to &&
     ((start_time() != end_time() && end_time() >  from) ||
      (start_time() == end_time() && end_time() >= from))] *)
Definition is_between (st : store) (d : t) (from to : Timestamp) : checked bool :=
  assert_pointers d ;;;
  and_then
    (s <- start_time st d ;; Value (s <? to))
    (or_else
       (and_then
          (s <- start_time st d ;; e <- end_time st d ;; Value (negb (s =? e)))
          (e <- end_time st d ;; Value (e >? from)))
       (and_then
          (s <- start_time st d ;; e <- end_time st d ;; Value (s =? e))
          (e <- end_time st d ;; Value (e >=? from)))).

(** [is_visible_at(timestamp)]:
    [start_time() <= timestamp && end_time() > timestamp && m_curr->visible()] *)
Definition is_visible_at (st : store) (d : t) (timestamp : Timestamp) : checked bool :=
  a <- assert_pointers d ;;
  let '(_, c, _) := a in
  and_then
    (and_then
       (s <- start_time st d ;; Value (s <=? timestamp))
       (e <- end_time st d ;; Value (e >? timestamp)))
    (Value (OSMObject.visible (st c))).

End DiffObject.

(** ** [template <typename T> class DiffObjectDerived : public DiffObject] *)

(** [const T&] for [T] one of [Node], [Way], [Relation]: the address of an
    object whose static type is the class with tag [K]. *)
Record typed_ref (K : item_type) : Type := narrow { ref_loc : loc }.

Arguments narrow {K} ref_loc.
Arguments ref_loc {K} _.

Module DiffObjectDerived.

(** The derived class adds no member: an object of it is its base
    subobject. *)
Record t (K : item_type) : Type := mk { base : DiffObject.t }.

Arguments mk {K} base.
Arguments base {K} _.

(** [DiffObjectDerived(prev, curr, next) : DiffObject(prev, curr, next) {}];
    each [const T&] converts to the [const OSMObject&] of the same object. *)
Definition new {K : item_type} (st : store) (prev curr next : typed_ref K)
  : checked (t K) :=
  b <- DiffObject.new st (ref_loc prev) (ref_loc curr) (ref_loc next) ;;
  Value (mk b).

(** [prev()]: [static_cast<const T&>(DiffObject::prev())]. *)
Definition prev {K : item_type} (d : t K) : checked (typed_ref K) :=
  r <- DiffObject.prev (base d) ;; Value (narrow r).

(** [curr()]: [static_cast<const T&>(DiffObject::curr())]. *)
Definition curr {K : item_type} (d : t K) : checked (typed_ref K) :=
  r <- DiffObject.curr (base d) ;; Value (narrow r).

(** [next()]: [static_cast<const T&>(DiffObject::next())]. *)
Definition next {K : item_type} (d : t K) : checked (typed_ref K) :=
  r <- DiffObject.next (base d) ;; Value (narrow r).

(** A member function of [DiffObject] called on a derived object runs on its
    base subobject. *)
Definition inherited {K : item_type} {A : Type} (q : DiffObject.t -> A) (d : t K) : A :=
  q (base d).

End DiffObjectDerived.

(** ** Vocabulary of the statements *)

(** The three objects share the type tag and the id. *)
Definition same_identity (st : store) (p c n : loc) : Prop :=
  (OSMObject.type (st p) = OSMObject.type (st c)
   /\ OSMObject.type (st c) = OSMObject.type (st n))
  /\ (OSMObject.id (st p) = OSMObject.id (st c)
      /\ OSMObject.id (st c) = OSMObject.id (st n)).

(** The values a triple can take through its public constructors. *)
Inductive constructed (st : store) : DiffObject.t -> Prop :=
| constructed_default : constructed st DiffObject.default
| constructed_from (p c n : loc) (d : DiffObject.t) :
    DiffObject.new st p c n = Value d -> constructed st d.

(** The half-open interval [[s, e)] lies inside [[from, to)]. *)
Definition interval_subset (s e from to : Timestamp) : Prop :=
  forall t : Timestamp, s <= t < e -> from <= t < to.

(** Containment of the validity interval in the query interval implies
    overlap, for every non-empty triple. *)
Definition containment_implies_overlap : Prop :=
  forall (st : store) (p c n : loc) (d : DiffObject.t) (from to s e : Timestamp),
    DiffObject.new st p c n = Value d ->
    DiffObject.start_time st d = Value s ->
    DiffObject.end_time st d = Value e ->
    interval_subset s e from to ->
    DiffObject.is_between st d from to = Value true.

(** On every non-empty triple with a visible current object and
    [start_time() != end_time()], the version is visible at [start_time()]
    and not visible at [end_time()]. *)
Definition visible_at_ends_when_unequal : Prop :=
  forall (st : store) (p c n : loc) (d : DiffObject.t) (s e : Timestamp),
    DiffObject.new st p c n = Value d ->
    OSMObject.visible (st c) = true ->
    DiffObject.start_time st d = Value s ->
    DiffObject.end_time st d = Value e ->
    s <> e ->
    DiffObject.is_visible_at st d s = Value true
    /\ DiffObject.is_visible_at st d e = Value false.

(** On every non-empty triple that is not the last and whose current and
    next objects carry the same timestamp, [is_between] is true for the
    query from [start_time()] to [start_time() + 1] and false for the query
    from [start_time() - 1] to [start_time()]. *)
Definition degenerate_unit_queries : Prop :=
  forall (st : store) (p c n : loc) (d : DiffObject.t) (s : Timestamp),
    DiffObject.new st p c n = Value d ->
    DiffObject.last d = Value false ->
    OSMObject.timestamp (st c) = OSMObject.timestamp (st n) ->
    representable (OSMObject.timestamp (st c)) ->
    DiffObject.start_time st d = Value s ->
    DiffObject.is_between st d s (Timestamp_of_integer (s + 1)) = Value true
    /\ DiffObject.is_between st d (Timestamp_of_integer (s - 1)) s
       = Value false.

(** ** A version chain to evaluate on

    One node with three versions: v1 at instant 100, v2 at instant 150, and
    v3, a deletion, also at instant 150. *)

Definition v1 : OSMObject.t :=
  OSMObject.mk node 7 1 10 100 true.

Definition v2 : OSMObject.t :=
  OSMObject.mk node 7 2 11 150 true.

Definition v3 : OSMObject.t :=
  OSMObject.mk node 7 3 12 150 false.

(** Three addresses. *)
Definition a1 : loc := 1%positive.

Definition a2 : loc := 2%positive.

Definition a3 : loc := 3%positive.

(** v1 at address [a1], v2 at address [a2], v3 everywhere else. *)
Definition chain : store :=
  fun l => if Pos.eqb l a1 then v1 else if Pos.eqb l a2 then v2 else v3.

(** The triple at v2, whose interval is degenerate. *)
Definition at_v2 : DiffObject.t :=
  DiffObject.mk (Some a1) (Some a2) (Some a3).

(** The triple at v3, the last version. *)
Definition at_v3 : DiffObject.t :=
  DiffObject.mk (Some a2) (Some a3) (Some a3).

(** The triple at v1, the first version. *)
Definition at_v1 : DiffObject.t :=
  DiffObject.mk (Some a1) (Some a1) (Some a2).

(** A chain whose second version carries an earlier timestamp than its
    first: w1 at instant 200, w2 at instant 100. *)
Definition w1 : OSMObject.t :=
  OSMObject.mk way 9 1 20 200 true.

Definition w2 : OSMObject.t :=
  OSMObject.mk way 9 2 21 100 true.

(** w1 at address [a1], w2 everywhere else. *)
Definition backdated : store :=
  fun l => if Pos.eqb l a1 then w1 else w2.

(** The triple at w1 in [backdated]. *)
Definition at_w1 : DiffObject.t :=
  DiffObject.mk (Some a1) (Some a1) (Some a2).

(** Two nodes that differ in their id only: v1 at address [a1], u1
    everywhere else. *)
Definition u1 : OSMObject.t :=
  OSMObject.mk node 8 1 30 100 true.

Definition mixed : store :=
  fun l => if Pos.eqb l a1 then v1 else u1.

(** Two versions of a relation that both carry the largest representable
    instant: z1 at address [a1], z2 everywhere else. *)
Definition z1 : OSMObject.t :=
  OSMObject.mk relation 5 1 40 4294967295 true.

Definition z2 : OSMObject.t :=
  OSMObject.mk relation 5 2 41 4294967295 true.

Definition latest : store :=
  fun l => if Pos.eqb l a1 then z1 else z2.

(** ** Basic facts *)

Lemma item_type_eqb_eq (a b : item_type) :
  item_type_eqb a b = true <-> a = b.
Proof.
  destruct a, b; simpl; split; intro H; try reflexivity; discriminate H.
Qed.

Lemma bind_Value {A B : Type} (m : checked A) (k : A -> checked B) (b : B) :
  bind m k = Value b -> exists a, m = Value a /\ k a = Value b.
Proof.
  destruct m as [a|]; simpl; intro H.
  - exists a. split; [reflexivity | exact H].
  - discriminate H.
Qed.

Lemma assert_Value (b : bool) (u : unit) :
  assert b = Value u -> b = true.
Proof.
  destruct b; simpl; intro H; [reflexivity | discriminate H].
Qed.

(** The asserting constructor returns exactly when its two assertions hold,
    and then the triple holds the three addresses it was given. *)
Lemma new_Value (st : store) (p c n : loc) (d : DiffObject.t) :
  DiffObject.new st p c n = Value d <->
  same_identity st p c n /\ d = DiffObject.mk (Some p) (Some c) (Some n).
Proof.
  unfold DiffObject.new, same_identity. split.
  - intro H.
    apply bind_Value in H as [u1 [H1 H]].
    apply bind_Value in H as [u2 [H2 H]].
    apply assert_Value in H1. apply assert_Value in H2.
    apply andb_true_iff in H1 as [T1 T2].
    apply andb_true_iff in H2 as [I1 I2].
    apply item_type_eqb_eq in T1. apply item_type_eqb_eq in T2.
    apply Z.eqb_eq in I1. apply Z.eqb_eq in I2.
    injection H as <-. repeat split; assumption.
  - intros [[[T1 T2] [I1 I2]] ->].
    apply item_type_eqb_eq in T1. apply item_type_eqb_eq in T2.
    apply Z.eqb_eq in I1. apply Z.eqb_eq in I2.
    rewrite T1, T2, I1, I2. reflexivity.
Qed.

Lemma new_pointers (st : store) (p c n : loc) (d : DiffObject.t) :
  DiffObject.new st p c n = Value d ->
  DiffObject.assert_pointers d = Value (p, c, n).
Proof.
  intro H. apply new_Value in H as [_ ->]. reflexivity.
Qed.

(** A constructed triple has all three pointers null or none of them. *)
Lemma constructed_pointers (st : store) (d : DiffObject.t) :
  constructed st d ->
  d = DiffObject.default
  \/ exists p c n, d = DiffObject.mk (Some p) (Some c) (Some n).
Proof.
  intro C. destruct C as [|p c n d' H].
  - left. reflexivity.
  - right. apply new_Value in H as [_ ->]. exists p, c, n. reflexivity.
Qed.

(** Among constructed triples the non-empty ones are those the asserting
    constructor returned. *)
Lemma nonempty_constructed (st : store) (d : DiffObject.t) :
  constructed st d ->
  (DiffObject.empty d = false <->
   exists p c n, DiffObject.new st p c n = Value d).
Proof.
  intros C. split.
  - intro E. destruct C as [|p c n d' H].
    + discriminate E.
    + exists p, c, n. exact H.
  - intros [p [c [n H]]]. apply new_Value in H as [_ ->]. reflexivity.
Qed.

(** What the temporal accessors compute on the triple of [p], [c], [n]. *)
Lemma start_time_eq (st : store) (p c n : loc) :
  DiffObject.start_time st (DiffObject.mk (Some p) (Some c) (Some n))
  = Value (OSMObject.timestamp (st c)).
Proof. reflexivity. Qed.

Lemma end_time_eq (st : store) (p c n : loc) :
  DiffObject.end_time st (DiffObject.mk (Some p) (Some c) (Some n))
  = Value (if Pos.eqb c n then end_of_time else OSMObject.timestamp (st n)).
Proof. reflexivity. Qed.

Lemma is_between_eq (st : store) (p c n : loc) (from to : Timestamp) :
  DiffObject.is_between st (DiffObject.mk (Some p) (Some c) (Some n)) from to
  = let s := OSMObject.timestamp (st c) in
    let e := if Pos.eqb c n then end_of_time else OSMObject.timestamp (st n) in
    Value ((s <? to) && ((negb (s =? e) && (e >? from)) || ((s =? e) && (e >=? from)))).
Proof.
  unfold DiffObject.is_between. rewrite start_time_eq, end_time_eq.
  cbn [DiffObject.assert_pointers DiffObject.m_prev DiffObject.m_curr
       DiffObject.m_next bind and_then or_else].
  destruct (_ <? to); [|reflexivity].
  destruct (_ =? _); cbn [negb andb orb]; [reflexivity|].
  destruct (_ >? from); reflexivity.
Qed.

Lemma is_visible_at_eq (st : store) (p c n : loc) (ts : Timestamp) :
  DiffObject.is_visible_at st (DiffObject.mk (Some p) (Some c) (Some n)) ts
  = let s := OSMObject.timestamp (st c) in
    let e := if Pos.eqb c n then end_of_time else OSMObject.timestamp (st n) in
    Value ((s <=? ts) && (e >? ts) && OSMObject.visible (st c)).
Proof.
  unfold DiffObject.is_visible_at. rewrite start_time_eq, end_time_eq.
  cbn [DiffObject.assert_pointers DiffObject.m_prev DiffObject.m_curr
       DiffObject.m_next bind and_then].
  destruct (_ <=? ts); [|reflexivity].
  destruct (_ >? ts); reflexivity.
Qed.

(** Boolean comparisons of timestamps against their propositions. *)
Lemma gtb_gt (a b : Z) : (a >? b) = true <-> a > b.
Proof. rewrite Z.gtb_ltb, Z.ltb_lt. lia. Qed.

Lemma geb_ge (a b : Z) : (a >=? b) = true <-> a >= b.
Proof. rewrite Z.geb_leb, Z.leb_le. lia. Qed.

Lemma neqb_neq (a b : Z) : negb (a =? b) = true <-> a <> b.
Proof. rewrite negb_true_iff, Z.eqb_neq. reflexivity. Qed.

(** ** The interval queries *)

(** C1. For every non-empty triple and all timestamps [from] and [to],
    [is_between(from, to)] returns true if and only if
    [start_time() < to] and either [start_time() != end_time()] and
    [end_time() > from], or [start_time() == end_time()] and
    [end_time() >= from]: the lower bound is strict for a non-degenerate
    interval and inclusive exactly when the interval is degenerate. *)
Theorem is_between_rule
  (st : store) (p c n : loc) (d : DiffObject.t) (from to : Timestamp) :
  DiffObject.new st p c n = Value d ->
  exists (s e : Timestamp) (b : bool),
    DiffObject.start_time st d = Value s
    /\ DiffObject.end_time st d = Value e
    /\ DiffObject.is_between st d from to = Value b
    /\ (b = true <->
        s < to /\ ((s <> e /\ e > from) \/ (s = e /\ e >= from))).
Proof.
  intro H. apply new_Value in H as [_ ->].
  eexists _, _, _.
  split; [apply start_time_eq|].
  split; [apply end_time_eq|].
  split; [apply is_between_eq|].
  cbv zeta.
  rewrite andb_true_iff, orb_true_iff, !andb_true_iff.
  rewrite Z.ltb_lt, neqb_neq, gtb_gt, Z.eqb_eq, geb_ge.
  reflexivity.
Qed.

Lemma is_between_rule_witness :
  DiffObject.new chain a1 a2 a3 = Value at_v2
  /\ exists (s e : Timestamp) (b : bool),
    DiffObject.start_time chain at_v2
    = Value s
    /\ DiffObject.end_time chain at_v2
       = Value e
    /\ DiffObject.is_between chain
         at_v2 150 151
       = Value b
    /\ (b = true <->
        s < 151 /\ ((s <> e /\ e > 150) \/ (s = e /\ e >= 150))).
Proof.
  split; [reflexivity|].
  apply (is_between_rule chain a1 a2 a3). reflexivity.
Defined.

(** C2. For every non-empty triple and every timestamp [t],
    [is_visible_at(t)] returns true if and only if [start_time() <= t],
    [end_time() > t] and the current object is visible; in particular it is
    false at every [t] when the current object is not visible. *)
Theorem is_visible_at_rule
  (st : store) (p c n : loc) (d : DiffObject.t) (t : Timestamp) :
  DiffObject.new st p c n = Value d ->
  exists (s e : Timestamp) (b : bool),
    DiffObject.start_time st d = Value s
    /\ DiffObject.end_time st d = Value e
    /\ DiffObject.is_visible_at st d t = Value b
    /\ (b = true <-> s <= t /\ e > t /\ OSMObject.visible (st c) = true)
    /\ (OSMObject.visible (st c) = false -> b = false).
Proof.
  intro H. apply new_Value in H as [_ ->].
  eexists _, _, _.
  split; [apply start_time_eq|].
  split; [apply end_time_eq|].
  split; [apply is_visible_at_eq|].
  cbv zeta. split.
  - rewrite !andb_true_iff, Z.leb_le, gtb_gt. tauto.
  - intros ->. apply andb_false_r.
Qed.

Lemma is_visible_at_rule_witness :
  DiffObject.new chain a2 a3 a3 = Value at_v3
  /\ exists (s e : Timestamp) (b : bool),
    DiffObject.start_time chain at_v3
    = Value s
    /\ DiffObject.end_time chain at_v3
       = Value e
    /\ DiffObject.is_visible_at chain
         at_v3 200
       = Value b
    /\ (b = true <-> s <= 200 /\ e > 200 /\ OSMObject.visible (chain a3) = true)
    /\ (OSMObject.visible (chain a3) = false -> b = false).
Proof.
  split; [reflexivity|].
  apply (is_visible_at_rule chain a2 a3 a3). reflexivity.
Defined.

(** The sentinel is the largest representable instant. *)
Lemma end_of_time_max (t : Timestamp) :
  representable t -> t <= end_of_time.
Proof.
  unfold representable, end_of_time. lia.
Qed.

(** C3. For every non-empty triple, if [last()] holds then [end_time()] is
    the "end of time" sentinel, which compares strictly greater than every
    real timestamp; otherwise [end_time()] is the timestamp of the next
    object. *)
Theorem end_time_rule
  (st : store) (p c n : loc) (d : DiffObject.t) :
  DiffObject.new st p c n = Value d ->
  exists l : bool,
    DiffObject.last d = Value l
    /\ DiffObject.next d = Value n
    /\ (l = true -> DiffObject.end_time st d = Value end_of_time)
    /\ (l = false ->
        DiffObject.end_time st d = Value (OSMObject.timestamp (st n)))
    /\ (forall t : Timestamp, real_timestamp t -> (end_of_time >? t) = true).
Proof.
  intro H. apply new_Value in H as [_ ->].
  exists (Pos.eqb c n).
  split; [reflexivity|].
  split; [reflexivity|].
  split; [|split].
  - intro L. rewrite end_time_eq, L. reflexivity.
  - intro L. rewrite end_time_eq, L. reflexivity.
  - intros t [R N]. apply gtb_gt.
    apply end_of_time_max in R. lia.
Qed.

Lemma end_time_rule_witness :
  DiffObject.new chain a2 a3 a3 = Value at_v3
  /\ exists l : bool,
    DiffObject.last at_v3 = Value l
    /\ DiffObject.next at_v3
       = Value a3
    /\ (l = true ->
        DiffObject.end_time chain at_v3
        = Value end_of_time)
    /\ (l = false ->
        DiffObject.end_time chain at_v3
        = Value (OSMObject.timestamp (chain a3)))
    /\ (forall t : Timestamp, real_timestamp t -> (end_of_time >? t) = true).
Proof.
  split; [reflexivity|].
  apply (end_time_rule chain a2 a3 a3). reflexivity.
Defined.

(** Reading [start_time()] and [end_time()] of the triple a constructor call
    returned. *)
Ltac read_times H Hs He :=
  apply new_Value in H as [_ ->];
  rewrite start_time_eq in Hs; rewrite end_time_eq in He;
  injection Hs as <-; injection He as <-.

(** C4, as stated, fails.  The triple at v2 has the empty validity interval
    [[150, 150)], which lies inside [[100, 150)] (as a set, and end point by
    end point), and [is_between(100, 150)] is false there:
    [start_time() < to] fails. *)
Lemma containment_implies_overlap_fails :
  (DiffObject.new chain a1 a2 a3 = Value at_v2
   /\ DiffObject.start_time chain at_v2 = Value 150
   /\ DiffObject.end_time chain at_v2 = Value 150
   /\ interval_subset 150 150 100 150
   /\ (100 <= 150 /\ 150 <= 150)
   /\ DiffObject.is_between chain at_v2 100 150 = Value false)
  /\ ~ containment_implies_overlap.
Proof.
  assert (S : interval_subset 150 150 100 150)
    by (unfold interval_subset; intros t Ht; lia).
  split.
  - repeat split; try reflexivity; try lia; apply S; assumption.
  - intro C.
    specialize (C chain a1 a2 a3 at_v2 100 150 150 150
                  eq_refl eq_refl eq_refl S).
    discriminate C.
Qed.

(** C4 (amended). For every non-empty triple whose validity interval is not
    empty, [start_time() < end_time()], and all timestamps [from] and [to]:
    if [[start_time(), end_time())] lies inside [[from, to)] then
    [is_between(from, to)] returns true. *)
Theorem is_between_of_containment
  (st : store) (p c n : loc) (d : DiffObject.t) (from to s e : Timestamp) :
  DiffObject.new st p c n = Value d ->
  DiffObject.start_time st d = Value s ->
  DiffObject.end_time st d = Value e ->
  s < e ->
  interval_subset s e from to ->
  DiffObject.is_between st d from to = Value true.
Proof.
  intros H Hs He Hlt Hsub.
  read_times H Hs He.
  rewrite is_between_eq. cbv zeta.
  set (s := OSMObject.timestamp (st c)) in *.
  set (e := if Pos.eqb c n then _ else _) in *.
  pose proof (Hsub s ltac:(lia)) as B1.
  pose proof (Hsub (e - 1) ltac:(lia)) as B2.
  f_equal.
  apply andb_true_iff. split; [apply Z.ltb_lt; lia|].
  apply orb_true_iff. left.
  apply andb_true_iff. split; [apply neqb_neq; lia | apply gtb_gt; lia].
Qed.

Lemma is_between_of_containment_witness :
  DiffObject.new chain a1 a1 a2 = Value at_v1
  /\ DiffObject.start_time chain at_v1 = Value 100
  /\ DiffObject.end_time chain at_v1 = Value 150
  /\ 100 < 150
  /\ interval_subset 100 150 50 150
  /\ DiffObject.is_between chain at_v1 50 150 = Value true.
Proof.
  assert (S : interval_subset 100 150 50 150)
    by (unfold interval_subset; intros t Ht; lia).
  split; [reflexivity|]. split; [reflexivity|]. split; [reflexivity|].
  split; [lia|]. split; [exact S|].
  apply (is_between_of_containment chain a1 a1 a2 at_v1 50 150 100 150);
    [reflexivity | reflexivity | reflexivity | lia | exact S].
Defined.

(** On a non-last triple whose current and next objects carry the same
    timestamp [s], the interval is degenerate and, with [s + 1] and [s - 1]
    taken as integers, [is_between(s, s + 1)] is true and
    [is_between(s - 1, s)] is false. *)
Lemma is_between_degenerate
  (st : store) (p c n : loc) (d : DiffObject.t) :
  DiffObject.new st p c n = Value d ->
  DiffObject.last d = Value false ->
  OSMObject.timestamp (st c) = OSMObject.timestamp (st n) ->
  exists s : Timestamp,
    DiffObject.start_time st d = Value s
    /\ DiffObject.end_time st d = Value s
    /\ DiffObject.is_between st d s (s + 1) = Value true
    /\ DiffObject.is_between st d (s - 1) s = Value false.
Proof.
  intros H L T. apply new_Value in H as [_ ->].
  cbn in L. injection L as L.
  exists (OSMObject.timestamp (st c)).
  rewrite start_time_eq, end_time_eq, !is_between_eq, L, <- T. cbv zeta.
  set (s := OSMObject.timestamp (st c)).
  split; [reflexivity|]. split; [reflexivity|].
  rewrite Z.eqb_refl, Z.ltb_irrefl. cbn [negb andb orb].
  split; [|reflexivity].
  f_equal. apply andb_true_iff.
  split; [apply Z.ltb_lt | apply geb_ge]; lia.
Qed.

(** The conversion leaves a representable integer as it is and takes the
    successor of the largest instant to 0. *)
Lemma Timestamp_of_integer_representable (z : Z) :
  representable z -> Timestamp_of_integer z = z.
Proof.
  unfold representable, Timestamp_of_integer. intro R.
  apply Z.mod_small. exact R.
Qed.

Lemma Timestamp_of_integer_wraps :
  Timestamp_of_integer (end_of_time + 1) = 0.
Proof. reflexivity. Qed.

(** No query that ends at [start_time()] matches a non-empty triple. *)
Lemma is_between_ending_at_start
  (st : store) (p c n : loc) (d : DiffObject.t) (s from : Timestamp) :
  DiffObject.new st p c n = Value d ->
  DiffObject.start_time st d = Value s ->
  DiffObject.is_between st d from s = Value false.
Proof.
  intros H Hs. apply new_Value in H as [_ ->].
  rewrite start_time_eq in Hs. injection Hs as <-.
  rewrite is_between_eq. cbv zeta. rewrite Z.ltb_irrefl. reflexivity.
Qed.

(** C5, as stated, fails.  In [latest] the triple at z1 is not the last, its
    current and next objects both carry the largest representable instant
    [2 ^ 32 - 1], and [start_time() + 1] is the timestamp 0: the query from
    [start_time()] to 0 is answered false, because [start_time() < to]
    fails. *)
Lemma degenerate_unit_queries_fails :
  (DiffObject.new latest a1 a1 a2 = Value at_v1
   /\ DiffObject.last at_v1 = Value false
   /\ OSMObject.timestamp (latest a1) = OSMObject.timestamp (latest a2)
   /\ representable (OSMObject.timestamp (latest a1))
   /\ DiffObject.start_time latest at_v1 = Value end_of_time
   /\ DiffObject.end_time latest at_v1 = Value end_of_time
   /\ Timestamp_of_integer (end_of_time + 1) = 0
   /\ DiffObject.is_between latest at_v1 end_of_time
        (Timestamp_of_integer (end_of_time + 1)) = Value false)
  /\ ~ degenerate_unit_queries.
Proof.
  assert (R : representable (OSMObject.timestamp (latest a1)))
    by (unfold representable; simpl; lia).
  split.
  - split; [reflexivity|]. split; [reflexivity|]. split; [reflexivity|].
    split; [exact R|]. repeat split.
  - intro C.
    destruct (C latest a1 a1 a2 at_v1 end_of_time
                eq_refl eq_refl eq_refl R eq_refl) as [T _].
    discriminate T.
Qed.

(** C5 (amended). For every non-empty triple that is not the last, whose
    current and next objects carry the same timestamp and whose
    [start_time()] is a real timestamp, i.e. lies below the end of time so
    that [start_time() + 1] is a timestamp again: the interval is
    degenerate, [is_between(start_time(), start_time() + 1)] returns true
    and [is_between(start_time() - 1, start_time())] returns false. *)
Theorem is_between_degenerate_real
  (st : store) (p c n : loc) (d : DiffObject.t) :
  DiffObject.new st p c n = Value d ->
  DiffObject.last d = Value false ->
  OSMObject.timestamp (st c) = OSMObject.timestamp (st n) ->
  real_timestamp (OSMObject.timestamp (st c)) ->
  exists s : Timestamp,
    DiffObject.start_time st d = Value s
    /\ DiffObject.end_time st d = Value s
    /\ Timestamp_of_integer (s + 1) = s + 1
    /\ DiffObject.is_between st d s (Timestamp_of_integer (s + 1)) = Value true
    /\ DiffObject.is_between st d (Timestamp_of_integer (s - 1)) s
       = Value false.
Proof.
  intros H L T [R N].
  destruct (is_between_degenerate st p c n d H L T) as [s [Hs [He [B _]]]].
  exists s.
  assert (E : s = OSMObject.timestamp (st c)).
  { pose proof H as K. apply new_Value in K as [_ ->].
    rewrite start_time_eq in Hs. injection Hs as <-. reflexivity. }
  assert (W : Timestamp_of_integer (s + 1) = s + 1).
  { apply Timestamp_of_integer_representable.
    rewrite E. unfold representable, end_of_time in *. lia. }
  split; [exact Hs|]. split; [exact He|]. split; [exact W|].
  split.
  - rewrite W. exact B.
  - apply (is_between_ending_at_start st p c n d s _ H Hs).
Qed.

Lemma is_between_degenerate_real_witness :
  DiffObject.new chain a1 a2 a3 = Value at_v2
  /\ DiffObject.last at_v2 = Value false
  /\ OSMObject.timestamp (chain a2) = OSMObject.timestamp (chain a3)
  /\ real_timestamp (OSMObject.timestamp (chain a2))
  /\ exists s : Timestamp,
       DiffObject.start_time chain at_v2 = Value s
       /\ DiffObject.end_time chain at_v2 = Value s
       /\ Timestamp_of_integer (s + 1) = s + 1
       /\ DiffObject.is_between chain at_v2 s (Timestamp_of_integer (s + 1))
          = Value true
       /\ DiffObject.is_between chain at_v2 (Timestamp_of_integer (s - 1)) s
          = Value false.
Proof.
  assert (R : real_timestamp (OSMObject.timestamp (chain a2)))
    by (unfold real_timestamp, representable, end_of_time; simpl; lia).
  split; [reflexivity|]. split; [reflexivity|]. split; [reflexivity|].
  split; [exact R|].
  apply (is_between_degenerate_real chain a1 a2 a3 at_v2);
    [reflexivity | reflexivity | reflexivity | exact R].
Defined.

(** The scenario of the version chain: on the triple at v2,
    [is_between(150, 151)] is true and [is_between(149, 150)] is false. *)
Example is_between_at_v2 :
  DiffObject.is_between chain at_v2 150 151 = Value true
  /\ DiffObject.is_between chain at_v2 149 150 = Value false.
Proof. split; reflexivity. Qed.

(** ** Visibility at the ends of the interval *)

(** C6, as stated, fails.  In [backdated] the next version is older than the
    current one: the triple at w1 starts at 200 and ends at 100, the current
    object is visible, and [is_visible_at(200)] is false because
    [end_time() > 200] fails. *)
Lemma visible_at_ends_when_unequal_fails :
  (DiffObject.new backdated a1 a1 a2 = Value at_w1
   /\ OSMObject.visible (backdated a1) = true
   /\ DiffObject.start_time backdated at_w1 = Value 200
   /\ DiffObject.end_time backdated at_w1 = Value 100
   /\ 200 <> 100
   /\ DiffObject.is_visible_at backdated at_w1 200 = Value false)
  /\ ~ visible_at_ends_when_unequal.
Proof.
  split.
  - repeat split; try reflexivity. discriminate.
  - intro C.
    destruct (C backdated a1 a1 a2 at_w1 200 100
                eq_refl eq_refl eq_refl eq_refl ltac:(discriminate)) as [V _].
    discriminate V.
Qed.

(** C6 (amended). For every non-empty triple with a visible current object
    and [start_time() < end_time()], [is_visible_at(start_time())] returns
    true and [is_visible_at(end_time())] returns false. *)
Theorem is_visible_at_ends
  (st : store) (p c n : loc) (d : DiffObject.t) (s e : Timestamp) :
  DiffObject.new st p c n = Value d ->
  OSMObject.visible (st c) = true ->
  DiffObject.start_time st d = Value s ->
  DiffObject.end_time st d = Value e ->
  s < e ->
  DiffObject.is_visible_at st d s = Value true
  /\ DiffObject.is_visible_at st d e = Value false.
Proof.
  intros H V Hs He Hlt.
  read_times H Hs He.
  rewrite !is_visible_at_eq, V. cbv zeta.
  set (s := OSMObject.timestamp (st c)) in *.
  set (e := if Pos.eqb c n then _ else _) in *.
  split; f_equal.
  - rewrite !andb_true_iff, Z.leb_le, gtb_gt. lia.
  - rewrite andb_true_r. apply andb_false_iff. right.
    rewrite Z.gtb_ltb. apply Z.ltb_irrefl.
Qed.

Lemma is_visible_at_ends_witness :
  DiffObject.new chain a1 a1 a2 = Value at_v1
  /\ OSMObject.visible (chain a1) = true
  /\ DiffObject.start_time chain at_v1 = Value 100
  /\ DiffObject.end_time chain at_v1 = Value 150
  /\ 100 < 150
  /\ DiffObject.is_visible_at chain at_v1 100 = Value true
  /\ DiffObject.is_visible_at chain at_v1 150 = Value false.
Proof.
  split; [reflexivity|]. split; [reflexivity|]. split; [reflexivity|].
  split; [reflexivity|]. split; [lia|].
  apply (is_visible_at_ends chain a1 a1 a2 at_v1 100 150);
    [reflexivity | reflexivity | reflexivity | reflexivity | lia].
Defined.

(** The second half needs no assumption on the interval: no non-empty
    triple is visible at its own [end_time()]. *)
Lemma not_visible_at_end_time
  (st : store) (p c n : loc) (d : DiffObject.t) (e : Timestamp) :
  DiffObject.new st p c n = Value d ->
  DiffObject.end_time st d = Value e ->
  DiffObject.is_visible_at st d e = Value false.
Proof.
  intros H He. apply new_Value in H as [_ ->].
  rewrite end_time_eq in He. injection He as <-.
  rewrite is_visible_at_eq. cbv zeta. f_equal.
  rewrite (Z.gtb_ltb _ _), Z.ltb_irrefl, andb_false_r. reflexivity.
Qed.

(** ** Construction and the empty triple *)

(** C7. In a checked build the three-argument constructor stops at an
    assertion exactly when the three objects do not all share the same type
    tag and the same id; for objects of identical type and id both
    assertions pass and the result is a non-empty triple over the three
    given objects. *)
Theorem construction_contract (st : store) (p c n : loc) :
  (DiffObject.new st p c n = AssertionFailure <-> ~ same_identity st p c n)
  /\ (same_identity st p c n ->
      exists d : DiffObject.t,
        DiffObject.new st p c n = Value d
        /\ DiffObject.empty d = false
        /\ DiffObject.prev d = Value p
        /\ DiffObject.curr d = Value c
        /\ DiffObject.next d = Value n).
Proof.
  split; [split|].
  - intros F S.
    assert (V : DiffObject.new st p c n
                = Value (DiffObject.mk (Some p) (Some c) (Some n)))
      by (apply new_Value; split; [exact S | reflexivity]).
    rewrite F in V. discriminate V.
  - intro N. destruct (DiffObject.new st p c n) as [d|] eqn:E.
    + apply new_Value in E as [S _]. contradiction.
    + reflexivity.
  - intro S. exists (DiffObject.mk (Some p) (Some c) (Some n)).
    split; [apply new_Value; split; [exact S | reflexivity]|].
    repeat split.
Qed.

Lemma construction_contract_witness :
  DiffObject.new mixed a1 a2 a2 = AssertionFailure
  /\ exists d : DiffObject.t,
       DiffObject.new chain a1 a2 a3 = Value d
       /\ DiffObject.empty d = false
       /\ DiffObject.prev d = Value a1
       /\ DiffObject.curr d = Value a2
       /\ DiffObject.next d = Value a3.
Proof.
  split.
  - apply (proj1 (construction_contract mixed a1 a2 a2)).
    intros [_ [I _]]. discriminate I.
  - apply (proj2 (construction_contract chain a1 a2 a3)).
    repeat split.
Defined.

(** C8. The default constructor yields a triple on which [empty()] is true
    and on which every other member function stops at its assertion; on a
    non-empty triple [empty()] is false and every member function
    returns. *)
Theorem empty_triple_contract :
  DiffObject.empty DiffObject.default = true
  /\ (forall (st : store) (from to t : Timestamp),
        DiffObject.prev DiffObject.default = AssertionFailure
        /\ DiffObject.curr DiffObject.default = AssertionFailure
        /\ DiffObject.next DiffObject.default = AssertionFailure
        /\ DiffObject.first DiffObject.default = AssertionFailure
        /\ DiffObject.last DiffObject.default = AssertionFailure
        /\ DiffObject.type st DiffObject.default = AssertionFailure
        /\ DiffObject.id st DiffObject.default = AssertionFailure
        /\ DiffObject.version st DiffObject.default = AssertionFailure
        /\ DiffObject.changeset st DiffObject.default = AssertionFailure
        /\ DiffObject.start_time st DiffObject.default = AssertionFailure
        /\ DiffObject.end_time st DiffObject.default = AssertionFailure
        /\ DiffObject.is_between st DiffObject.default from to = AssertionFailure
        /\ DiffObject.is_visible_at st DiffObject.default t = AssertionFailure)
  /\ (forall (st : store) (p c n : loc) (d : DiffObject.t) (from to t : Timestamp),
        DiffObject.new st p c n = Value d ->
        DiffObject.empty d = false
        /\ returns (DiffObject.prev d) = true
        /\ returns (DiffObject.curr d) = true
        /\ returns (DiffObject.next d) = true
        /\ returns (DiffObject.first d) = true
        /\ returns (DiffObject.last d) = true
        /\ returns (DiffObject.type st d) = true
        /\ returns (DiffObject.id st d) = true
        /\ returns (DiffObject.version st d) = true
        /\ returns (DiffObject.changeset st d) = true
        /\ returns (DiffObject.start_time st d) = true
        /\ returns (DiffObject.end_time st d) = true
        /\ returns (DiffObject.is_between st d from to) = true
        /\ returns (DiffObject.is_visible_at st d t) = true).
Proof.
  split; [reflexivity|]. split.
  - intros st from to t. repeat split.
  - intros st p c n d from to t H.
    apply new_Value in H as [_ ->].
    rewrite is_between_eq, is_visible_at_eq.
    repeat split.
Qed.

Lemma empty_triple_contract_witness :
  DiffObject.new chain a1 a2 a3 = Value at_v2
  /\ DiffObject.is_between chain DiffObject.default 150 151 = AssertionFailure
  /\ returns (DiffObject.is_between chain at_v2 150 151) = true.
Proof.
  split; [reflexivity|].
  destruct empty_triple_contract as [_ [E N]].
  split.
  - apply (E chain 150 151 0).
  - apply (N chain a1 a2 a3 at_v2 150 151 0). reflexivity.
Defined.

(** No other value is reachable: a constructed triple is empty or has all
    three pointers set, so [empty()] decides whether the assertion of the
    member functions passes. *)
Lemma empty_decides_assertion (st : store) (d : DiffObject.t) :
  constructed st d ->
  returns (DiffObject.assert_pointers d) = negb (DiffObject.empty d).
Proof.
  intro C. destruct (constructed_pointers st d C) as [-> | [p [c [n ->]]]];
    reflexivity.
Qed.

(** ** The typed view *)

(** The derived constructor returns exactly when the base constructor does,
    and then the base subobject is the base triple. *)
Lemma derived_new_Value
  (K : item_type) (st : store) (p c n : typed_ref K) (dd : DiffObjectDerived.t K) :
  DiffObjectDerived.new st p c n = Value dd <->
  DiffObject.new st (ref_loc p) (ref_loc c) (ref_loc n)
  = Value (DiffObjectDerived.base dd).
Proof.
  unfold DiffObjectDerived.new.
  destruct (DiffObject.new st (ref_loc p) (ref_loc c) (ref_loc n)) as [b|];
    cbn [bind]; split; intro H.
  - injection H as <-. reflexivity.
  - injection H as ->. destruct dd. reflexivity.
  - discriminate H.
  - discriminate H.
Qed.

(** C9. For a typed view built from three references of kind [K], the
    constructor succeeds or fails as the base constructor does on the same
    three objects; every inherited query returns what it returns on the base
    triple built from them; and the typed [prev()], [curr()], [next()]
    return the references the base accessors return, narrowed to [K]. *)
Theorem derived_agrees_with_base
  (K : item_type) (st : store) (p c n : typed_ref K) :
  (returns (DiffObjectDerived.new st p c n)
   = returns (DiffObject.new st (ref_loc p) (ref_loc c) (ref_loc n)))
  /\ forall (dd : DiffObjectDerived.t K) (d : DiffObject.t),
       DiffObjectDerived.new st p c n = Value dd ->
       DiffObject.new st (ref_loc p) (ref_loc c) (ref_loc n) = Value d ->
       DiffObjectDerived.inherited DiffObject.empty dd = DiffObject.empty d
       /\ DiffObjectDerived.inherited DiffObject.first dd = DiffObject.first d
       /\ DiffObjectDerived.inherited DiffObject.last dd = DiffObject.last d
       /\ DiffObjectDerived.inherited (DiffObject.type st) dd = DiffObject.type st d
       /\ DiffObjectDerived.inherited (DiffObject.id st) dd = DiffObject.id st d
       /\ DiffObjectDerived.inherited (DiffObject.version st) dd
          = DiffObject.version st d
       /\ DiffObjectDerived.inherited (DiffObject.changeset st) dd
          = DiffObject.changeset st d
       /\ DiffObjectDerived.inherited (DiffObject.start_time st) dd
          = DiffObject.start_time st d
       /\ DiffObjectDerived.inherited (DiffObject.end_time st) dd
          = DiffObject.end_time st d
       /\ (forall from to : Timestamp,
             DiffObjectDerived.inherited
               (fun b => DiffObject.is_between st b from to) dd
             = DiffObject.is_between st d from to)
       /\ (forall t : Timestamp,
             DiffObjectDerived.inherited
               (fun b => DiffObject.is_visible_at st b t) dd
             = DiffObject.is_visible_at st d t)
       /\ (DiffObject.prev d = Value (ref_loc p)
           /\ DiffObjectDerived.prev dd = Value p)
       /\ (DiffObject.curr d = Value (ref_loc c)
           /\ DiffObjectDerived.curr dd = Value c)
       /\ (DiffObject.next d = Value (ref_loc n)
           /\ DiffObjectDerived.next dd = Value n).
Proof.
  split.
  - unfold DiffObjectDerived.new.
    destruct (DiffObject.new st (ref_loc p) (ref_loc c) (ref_loc n));
      reflexivity.
  - intros dd d Hdd Hd.
    apply derived_new_Value in Hdd. rewrite Hd in Hdd.
    injection Hdd as B.
    apply new_Value in Hd as [_ ->].
    unfold DiffObjectDerived.inherited, DiffObjectDerived.prev,
      DiffObjectDerived.curr, DiffObjectDerived.next.
    rewrite <- B.
    destruct p as [lp], c as [lc], n as [ln].
    repeat split.
Qed.

Lemma derived_agrees_with_base_witness :
  DiffObjectDerived.new (K := node) chain (narrow a1) (narrow a2) (narrow a3)
  = Value (DiffObjectDerived.mk at_v2)
  /\ DiffObject.new chain a1 a2 a3 = Value at_v2
  /\ DiffObjectDerived.inherited (K := node)
       (fun b => DiffObject.is_between chain b 150 151)
       (DiffObjectDerived.mk at_v2)
     = DiffObject.is_between chain at_v2 150 151
  /\ DiffObjectDerived.curr (K := node) (DiffObjectDerived.mk at_v2)
     = Value (narrow a2).
Proof.
  split; [reflexivity|]. split; [reflexivity|].
  destruct (proj2 (derived_agrees_with_base node chain
                     (narrow a1) (narrow a2) (narrow a3))
              (DiffObjectDerived.mk at_v2) at_v2 eq_refl eq_refl)
    as (_ & _ & _ & _ & _ & _ & _ & _ & _ & B & _ & _ & [_ C] & _).
  split; [apply B | exact C].
Defined.

(** A well-typed reference of kind [K] designates an object whose tag is
    [K]; between such references only the ids can make the constructor
    fail. *)
Lemma derived_new_well_typed
  (K : item_type) (st : store) (p c n : typed_ref K) :
  OSMObject.type (st (ref_loc p)) = K ->
  OSMObject.type (st (ref_loc c)) = K ->
  OSMObject.type (st (ref_loc n)) = K ->
  (returns (DiffObjectDerived.new st p c n) = true <->
   OSMObject.id (st (ref_loc p)) = OSMObject.id (st (ref_loc c))
   /\ OSMObject.id (st (ref_loc c)) = OSMObject.id (st (ref_loc n))).
Proof.
  intros Tp Tc Tn.
  destruct (DiffObjectDerived.new st p c n) as [dd|] eqn:E; cbn [returns].
  - apply derived_new_Value, new_Value in E as [[_ I] _].
    split; [intros _; exact I | reflexivity].
  - split; [discriminate|]. intro I. exfalso.
    assert (V : DiffObjectDerived.new st p c n
                = Value (DiffObjectDerived.mk
                           (DiffObject.mk (Some (ref_loc p)) (Some (ref_loc c))
                              (Some (ref_loc n))))).
    { apply derived_new_Value, new_Value.
      split; [|reflexivity]. split; [|exact I].
      rewrite Tp, Tc, Tn. split; reflexivity. }
    rewrite E in V. discriminate V.
Qed.

(** ** Queries over an empty interval *)

(** Whenever an instant [t] lies strictly inside the validity interval,
    [is_between(t, t)] is true. *)
Lemma is_between_at_inner_instant
  (st : store) (p c n : loc) (d : DiffObject.t) (s e t : Timestamp) :
  DiffObject.new st p c n = Value d ->
  DiffObject.start_time st d = Value s ->
  DiffObject.end_time st d = Value e ->
  s < t < e ->
  DiffObject.is_between st d t t = Value true.
Proof.
  intros H Hs He Ht.
  read_times H Hs He.
  rewrite is_between_eq. cbv zeta.
  set (s := OSMObject.timestamp (st c)) in *.
  set (e := if Pos.eqb c n then _ else _) in *.
  f_equal.
  apply andb_true_iff. split; [apply Z.ltb_lt; lia|].
  apply orb_true_iff. left.
  apply andb_true_iff. split; [apply neqb_neq; lia | apply gtb_gt; lia].
Qed.

(** C10. [is_between] does not require [from < to]: there is a non-empty
    triple and an instant [t] with [start_time() < t < end_time()] such that
    [is_between(t, t)] returns true, although [[t, t)] is empty. *)
Theorem is_between_accepts_empty_query :
  exists (st : store) (p c n : loc) (d : DiffObject.t) (s e t : Timestamp),
    DiffObject.new st p c n = Value d
    /\ DiffObject.start_time st d = Value s
    /\ DiffObject.end_time st d = Value e
    /\ s < t < e
    /\ (forall x : Timestamp, ~ (t <= x < t))
    /\ DiffObject.is_between st d t t = Value true.
Proof.
  exists chain, a1, a1, a2, at_v1, 100, 150, 120.
  split; [reflexivity|]. split; [reflexivity|]. split; [reflexivity|].
  split; [lia|]. split; [intros x Hx; lia|].
  apply (is_between_at_inner_instant chain a1 a1 a2 at_v1 100 150 120);
    [reflexivity | reflexivity | reflexivity | lia].
Qed.

(** ** The version chain, evaluated *)

(** The triple at v2 is neither first nor last and its interval is
    degenerate at instant 150. *)
Example at_v2_times :
  DiffObject.first at_v2 = Value false
  /\ DiffObject.last at_v2 = Value false
  /\ DiffObject.start_time chain at_v2 = Value 150
  /\ DiffObject.end_time chain at_v2 = Value 150.
Proof. repeat split. Qed.

(** The triple at v3 is the last one: it ends at the sentinel, and the
    deletion is not visible at instant 200 although its interval contains
    it. *)
Example at_v3_times :
  DiffObject.last at_v3 = Value true
  /\ DiffObject.start_time chain at_v3 = Value 150
  /\ DiffObject.end_time chain at_v3 = Value end_of_time
  /\ 150 <= 200 < end_of_time
  /\ DiffObject.is_visible_at chain at_v3 200 = Value false.
Proof. repeat split; unfold end_of_time; simpl; lia. Qed.

(** Two distinct addresses holding equal objects are still two versions:
    [last()] compares the addresses. *)
Example last_is_by_address :
  let twin : store := fun _ => v1 in
  DiffObject.new twin a1 a1 a2 = Value at_v1
  /\ twin a1 = twin a2
  /\ DiffObject.last at_v1 = Value false
  /\ DiffObject.end_time twin at_v1 = Value 100.
Proof. repeat split. Qed.

(** ** Further properties of the queries *)

(** The two queries, as propositions over the times of the triple. *)
Lemma is_between_true_iff
  (st : store) (p c n : loc) (d : DiffObject.t) (s e from to : Timestamp) :
  DiffObject.new st p c n = Value d ->
  DiffObject.start_time st d = Value s ->
  DiffObject.end_time st d = Value e ->
  (DiffObject.is_between st d from to = Value true <->
   s < to /\ ((s <> e /\ e > from) \/ (s = e /\ e >= from))).
Proof.
  intros H Hs He. read_times H Hs He.
  rewrite is_between_eq. cbv zeta.
  rewrite <- Z.ltb_lt, <- neqb_neq, <- gtb_gt, <- Z.eqb_eq, <- geb_ge.
  rewrite <- !andb_true_iff, <- orb_true_iff, <- andb_true_iff.
  split; intro E; [injection E as E; exact E | rewrite E; reflexivity].
Qed.

Lemma is_visible_at_true_iff
  (st : store) (p c n : loc) (d : DiffObject.t) (s e t : Timestamp) :
  DiffObject.new st p c n = Value d ->
  DiffObject.start_time st d = Value s ->
  DiffObject.end_time st d = Value e ->
  (DiffObject.is_visible_at st d t = Value true <->
   s <= t /\ e > t /\ OSMObject.visible (st c) = true).
Proof.
  intros H Hs He. read_times H Hs He.
  rewrite is_visible_at_eq. cbv zeta.
  rewrite <- Z.leb_le, <- gtb_gt, <- !andb_true_iff, andb_assoc.
  split; intro E; [injection E as E; exact E | rewrite E; reflexivity].
Qed.

Lemma is_visible_at_false_iff
  (st : store) (p c n : loc) (d : DiffObject.t) (s e t : Timestamp) :
  DiffObject.new st p c n = Value d ->
  DiffObject.start_time st d = Value s ->
  DiffObject.end_time st d = Value e ->
  (DiffObject.is_visible_at st d t = Value false <->
   ~ (s <= t /\ e > t /\ OSMObject.visible (st c) = true)).
Proof.
  intros H Hs He.
  rewrite <- (is_visible_at_true_iff st p c n d s e t H Hs He).
  apply new_Value in H as [_ ->]. rewrite is_visible_at_eq. cbv zeta.
  destruct (_ && _ && _); split; intro E;
    try reflexivity; try discriminate E; try (intro F; discriminate F).
  exfalso. apply E. reflexivity.
Qed.

(** The times of a non-empty triple can always be read. *)
Lemma times_exist (st : store) (p c n : loc) (d : DiffObject.t) :
  DiffObject.new st p c n = Value d ->
  exists s e : Timestamp,
    DiffObject.start_time st d = Value s /\ DiffObject.end_time st d = Value e.
Proof.
  intro H. apply new_Value in H as [_ ->].
  eexists _, _. split; [apply start_time_eq | apply end_time_eq].
Qed.

(** X1. On a non-empty triple [type()] and [id()], which are read from the
    current object, are also the type and the id of the previous and of the
    next object. *)
Theorem identity_shared_by_neighbours
  (st : store) (p c n : loc) (d : DiffObject.t) :
  DiffObject.new st p c n = Value d ->
  DiffObject.type st d = Value (OSMObject.type (st p))
  /\ DiffObject.type st d = Value (OSMObject.type (st n))
  /\ DiffObject.id st d = Value (OSMObject.id (st p))
  /\ DiffObject.id st d = Value (OSMObject.id (st n)).
Proof.
  intro H. apply new_Value in H as [[[T1 T2] [I1 I2]] ->].
  cbn. rewrite T1, <- T2, I1, <- I2. repeat split.
Qed.

Lemma identity_shared_by_neighbours_witness :
  DiffObject.new chain a1 a2 a3 = Value at_v2
  /\ DiffObject.type chain at_v2 = Value (OSMObject.type (chain a1))
  /\ DiffObject.type chain at_v2 = Value (OSMObject.type (chain a3))
  /\ DiffObject.id chain at_v2 = Value (OSMObject.id (chain a1))
  /\ DiffObject.id chain at_v2 = Value (OSMObject.id (chain a3)).
Proof.
  split; [reflexivity|].
  apply (identity_shared_by_neighbours chain a1 a2 a3). reflexivity.
Defined.

(** X2. A triple that names one object as previous, current and next can
    always be constructed, whatever the object holds: both assertions pass,
    the triple is first and last, it starts at the object's timestamp and
    ends at the end of time. *)
Theorem only_version_triple (st : store) (c : loc) :
  exists d : DiffObject.t,
    DiffObject.new st c c c = Value d
    /\ DiffObject.empty d = false
    /\ DiffObject.first d = Value true
    /\ DiffObject.last d = Value true
    /\ DiffObject.start_time st d = Value (OSMObject.timestamp (st c))
    /\ DiffObject.end_time st d = Value end_of_time.
Proof.
  exists (DiffObject.mk (Some c) (Some c) (Some c)).
  split.
  - apply new_Value. split; [|reflexivity]. repeat split.
  - rewrite end_time_eq. cbn. rewrite Pos.eqb_refl. repeat split.
Qed.

(** X3. A version visible at an instant [t] overlaps every query interval
    [[from, to)] that contains [t]. *)
Theorem visible_implies_between
  (st : store) (p c n : loc) (d : DiffObject.t) (t from to : Timestamp) :
  DiffObject.new st p c n = Value d ->
  DiffObject.is_visible_at st d t = Value true ->
  from <= t < to ->
  DiffObject.is_between st d from to = Value true.
Proof.
  intros H V Ht.
  destruct (times_exist st p c n d H) as [s [e [Hs He]]].
  apply (is_visible_at_true_iff st p c n d s e t H Hs He) in V.
  apply (is_between_true_iff st p c n d s e from to H Hs He).
  lia.
Qed.

Lemma visible_implies_between_witness :
  DiffObject.new chain a1 a1 a2 = Value at_v1
  /\ DiffObject.is_visible_at chain at_v1 120 = Value true
  /\ 110 <= 120 < 130
  /\ DiffObject.is_between chain at_v1 110 130 = Value true.
Proof.
  split; [reflexivity|]. split; [reflexivity|]. split; [lia|].
  apply (visible_implies_between chain a1 a1 a2 at_v1 120 110 130);
    [reflexivity | reflexivity | lia].
Defined.

(** X4. Visibility at an instant is overlap with the one-second query that
    starts there, on a non-degenerate interval of a visible object:
    [is_visible_at(t)] is true exactly when [is_between(t, t + 1)] is true,
    [start_time() != end_time()] and the current object is visible. *)
Theorem visible_as_unit_query
  (st : store) (p c n : loc) (d : DiffObject.t) (s e t : Timestamp) :
  DiffObject.new st p c n = Value d ->
  DiffObject.start_time st d = Value s ->
  DiffObject.end_time st d = Value e ->
  (DiffObject.is_visible_at st d t = Value true <->
   DiffObject.is_between st d t (t + 1) = Value true
   /\ s <> e
   /\ OSMObject.visible (st c) = true).
Proof.
  intros H Hs He.
  rewrite (is_visible_at_true_iff st p c n d s e t H Hs He).
  rewrite (is_between_true_iff st p c n d s e t (t + 1) H Hs He).
  split; intro A.
  - repeat split; try tauto; lia.
  - destruct A as [[A1 [[A2 A3] | [A2 A3]]] [A4 A5]];
      repeat split; try assumption; lia.
Qed.

Lemma visible_as_unit_query_witness :
  DiffObject.new chain a1 a1 a2 = Value at_v1
  /\ DiffObject.start_time chain at_v1 = Value 100
  /\ DiffObject.end_time chain at_v1 = Value 150
  /\ (DiffObject.is_visible_at chain at_v1 120 = Value true <->
      DiffObject.is_between chain at_v1 120 (120 + 1) = Value true
      /\ 100 <> 150
      /\ OSMObject.visible (chain a1) = true).
Proof.
  split; [reflexivity|]. split; [reflexivity|]. split; [reflexivity|].
  apply (visible_as_unit_query chain a1 a1 a2 at_v1 100 150 120);
    reflexivity.
Defined.

(** X5. [is_between] is monotone in the query: once it is true for
    [[from, to)] it is true for every wider query [[from', to')]. *)
Theorem is_between_widen
  (st : store) (p c n : loc) (d : DiffObject.t) (from to from' to' : Timestamp) :
  DiffObject.new st p c n = Value d ->
  DiffObject.is_between st d from to = Value true ->
  from' <= from ->
  to <= to' ->
  DiffObject.is_between st d from' to' = Value true.
Proof.
  intros H B Hf Ht.
  destruct (times_exist st p c n d H) as [s [e [Hs He]]].
  apply (is_between_true_iff st p c n d s e from to H Hs He) in B.
  apply (is_between_true_iff st p c n d s e from' to' H Hs He).
  lia.
Qed.

Lemma is_between_widen_witness :
  DiffObject.new chain a1 a2 a3 = Value at_v2
  /\ DiffObject.is_between chain at_v2 150 151 = Value true
  /\ 100 <= 150
  /\ 151 <= 200
  /\ DiffObject.is_between chain at_v2 100 200 = Value true.
Proof.
  split; [reflexivity|]. split; [reflexivity|]. split; [lia|]. split; [lia|].
  apply (is_between_widen chain a1 a2 a3 at_v2 150 151 100 200);
    [reflexivity | reflexivity | lia | lia].
Defined.

(** X6. For a triple with [start_time() < end_time()] and a query with
    [from < to], [is_between(from, to)] is true exactly when the two
    half-open intervals share an instant. *)
Theorem is_between_is_intersection
  (st : store) (p c n : loc) (d : DiffObject.t) (s e from to : Timestamp) :
  DiffObject.new st p c n = Value d ->
  DiffObject.start_time st d = Value s ->
  DiffObject.end_time st d = Value e ->
  s < e ->
  from < to ->
  (DiffObject.is_between st d from to = Value true <->
   exists t : Timestamp, (s <= t < e) /\ (from <= t < to)).
Proof.
  intros H Hs He Hse Hft.
  rewrite (is_between_true_iff st p c n d s e from to H Hs He).
  split.
  - intro A. exists (Z.max s from). lia.
  - intros [t A]. lia.
Qed.

Lemma is_between_is_intersection_witness :
  DiffObject.new chain a1 a1 a2 = Value at_v1
  /\ DiffObject.start_time chain at_v1 = Value 100
  /\ DiffObject.end_time chain at_v1 = Value 150
  /\ 100 < 150
  /\ 140 < 300
  /\ (DiffObject.is_between chain at_v1 140 300 = Value true <->
      exists t : Timestamp, (100 <= t < 150) /\ (140 <= t < 300)).
Proof.
  split; [reflexivity|]. split; [reflexivity|]. split; [reflexivity|].
  split; [lia|]. split; [lia|].
  apply (is_between_is_intersection chain a1 a1 a2 at_v1 100 150 140 300);
    [reflexivity | reflexivity | reflexivity | lia | lia].
Defined.

(** X7. On a degenerate triple, [start_time() == end_time()], the version
    counts as the single instant [start_time()]: [is_between(from, to)] is
    true exactly when [from <= start_time() < to]. *)
Theorem is_between_degenerate_instant
  (st : store) (p c n : loc) (d : DiffObject.t) (s from to : Timestamp) :
  DiffObject.new st p c n = Value d ->
  DiffObject.start_time st d = Value s ->
  DiffObject.end_time st d = Value s ->
  (DiffObject.is_between st d from to = Value true <-> from <= s < to).
Proof.
  intros H Hs He.
  rewrite (is_between_true_iff st p c n d s s from to H Hs He).
  lia.
Qed.

Lemma is_between_degenerate_instant_witness :
  DiffObject.new chain a1 a2 a3 = Value at_v2
  /\ DiffObject.start_time chain at_v2 = Value 150
  /\ DiffObject.end_time chain at_v2 = Value 150
  /\ (DiffObject.is_between chain at_v2 120 180 = Value true <->
      120 <= 150 < 180).
Proof.
  split; [reflexivity|]. split; [reflexivity|]. split; [reflexivity|].
  apply (is_between_degenerate_instant chain a1 a2 a3 at_v2 150 120 180);
    reflexivity.
Defined.

(** X8. A version whose interval is degenerate or runs backwards,
    [end_time() <= start_time()], is visible at no instant, whatever its
    visible flag says. *)
Theorem never_visible_without_duration
  (st : store) (p c n : loc) (d : DiffObject.t) (s e : Timestamp) :
  DiffObject.new st p c n = Value d ->
  DiffObject.start_time st d = Value s ->
  DiffObject.end_time st d = Value e ->
  e <= s ->
  forall t : Timestamp, DiffObject.is_visible_at st d t = Value false.
Proof.
  intros H Hs He Hes t.
  apply (is_visible_at_false_iff st p c n d s e t H Hs He).
  lia.
Qed.

Lemma never_visible_without_duration_witness :
  DiffObject.new chain a1 a2 a3 = Value at_v2
  /\ DiffObject.start_time chain at_v2 = Value 150
  /\ DiffObject.end_time chain at_v2 = Value 150
  /\ 150 <= 150
  /\ OSMObject.visible (chain a2) = true
  /\ forall t : Timestamp, DiffObject.is_visible_at chain at_v2 t = Value false.
Proof.
  split; [reflexivity|]. split; [reflexivity|]. split; [reflexivity|].
  split; [lia|]. split; [reflexivity|].
  apply (never_visible_without_duration chain a1 a2 a3 at_v2 150 150);
    [reflexivity | reflexivity | reflexivity | lia].
Defined.

(** X9. Two consecutive positions of a chain: when the triple at [c] is not
    the last, its [end_time()] is the [start_time()] of the triple at its
    next object [n], and no instant sees both versions visible. *)
Theorem consecutive_triples_disjoint
  (st : store) (p c n n' : loc) (d1 d2 : DiffObject.t) :
  DiffObject.new st p c n = Value d1 ->
  DiffObject.new st c n n' = Value d2 ->
  DiffObject.last d1 = Value false ->
  DiffObject.end_time st d1 = DiffObject.start_time st d2
  /\ forall t : Timestamp,
       DiffObject.is_visible_at st d1 t = Value true ->
       DiffObject.is_visible_at st d2 t = Value false.
Proof.
  intros H1 H2 L.
  assert (E : DiffObject.end_time st d1 = DiffObject.start_time st d2).
  { apply new_Value in H1 as [_ ->]. apply new_Value in H2 as [_ ->].
    cbn in L. injection L as L.
    rewrite end_time_eq, start_time_eq, L. reflexivity. }
  split; [exact E|].
  intros t V.
  destruct (times_exist st p c n d1 H1) as [s1 [e1 [Hs1 He1]]].
  destruct (times_exist st c n n' d2 H2) as [s2 [e2 [Hs2 He2]]].
  rewrite He1, Hs2 in E. injection E as E.
  apply (is_visible_at_true_iff st p c n d1 s1 e1 t H1 Hs1 He1) in V.
  apply (is_visible_at_false_iff st c n n' d2 s2 e2 t H2 Hs2 He2).
  lia.
Qed.

Lemma consecutive_triples_disjoint_witness :
  DiffObject.new chain a1 a1 a2 = Value at_v1
  /\ DiffObject.new chain a1 a2 a3 = Value at_v2
  /\ DiffObject.last at_v1 = Value false
  /\ DiffObject.end_time chain at_v1 = DiffObject.start_time chain at_v2
  /\ forall t : Timestamp,
       DiffObject.is_visible_at chain at_v1 t = Value true ->
       DiffObject.is_visible_at chain at_v2 t = Value false.
Proof.
  split; [reflexivity|]. split; [reflexivity|]. split; [reflexivity|].
  apply (consecutive_triples_disjoint chain a1 a1 a2 a3 at_v1 at_v2);
    reflexivity.
Defined.

(** X10. Two consecutive positions leave no gap: when the triple at [c] is
    not the last and both current objects are visible, every instant from
    the first [start_time()] up to the second [end_time()] sees one of the
    two versions visible. *)
Theorem consecutive_triples_cover
  (st : store) (p c n n' : loc) (d1 d2 : DiffObject.t) (s1 e2 t : Timestamp) :
  DiffObject.new st p c n = Value d1 ->
  DiffObject.new st c n n' = Value d2 ->
  DiffObject.last d1 = Value false ->
  OSMObject.visible (st c) = true ->
  OSMObject.visible (st n) = true ->
  DiffObject.start_time st d1 = Value s1 ->
  DiffObject.end_time st d2 = Value e2 ->
  s1 <= t < e2 ->
  DiffObject.is_visible_at st d1 t = Value true
  \/ DiffObject.is_visible_at st d2 t = Value true.
Proof.
  intros H1 H2 L Vc Vn Hs1 He2 Ht.
  destruct (times_exist st p c n d1 H1) as [s1' [e1 [Hs1' He1]]].
  destruct (times_exist st c n n' d2 H2) as [s2 [e2' [Hs2 He2']]].
  rewrite Hs1 in Hs1'. injection Hs1' as <-.
  rewrite He2 in He2'. injection He2' as <-.
  assert (E : e1 = s2).
  { pose proof H1 as K1. pose proof H2 as K2.
    apply new_Value in K1 as [_ ->]. apply new_Value in K2 as [_ ->].
    cbn in L. injection L as L.
    rewrite end_time_eq, L in He1. rewrite start_time_eq in Hs2.
    injection He1 as <-. injection Hs2 as <-. reflexivity. }
  rewrite (is_visible_at_true_iff st p c n d1 s1 e1 t H1 Hs1 He1).
  rewrite (is_visible_at_true_iff st c n n' d2 s2 e2 t H2 Hs2 He2).
  destruct (Z_lt_le_dec t e1) as [A | A]; [left | right];
    repeat split; try assumption; lia.
Qed.

Lemma consecutive_triples_cover_witness :
  DiffObject.new chain a1 a1 a2 = Value at_v1
  /\ DiffObject.new chain a1 a2 a3 = Value at_v2
  /\ DiffObject.last at_v1 = Value false
  /\ OSMObject.visible (chain a1) = true
  /\ OSMObject.visible (chain a2) = true
  /\ DiffObject.start_time chain at_v1 = Value 100
  /\ DiffObject.end_time chain at_v2 = Value 150
  /\ 100 <= 120 < 150
  /\ (DiffObject.is_visible_at chain at_v1 120 = Value true
      \/ DiffObject.is_visible_at chain at_v2 120 = Value true).
Proof.
  split; [reflexivity|]. split; [reflexivity|]. split; [reflexivity|].
  split; [reflexivity|]. split; [reflexivity|]. split; [reflexivity|].
  split; [reflexivity|]. split; [lia|].
  apply (consecutive_triples_cover chain a1 a1 a2 a3 at_v1 at_v2 100 150 120);
    [reflexivity | reflexivity | reflexivity | reflexivity | reflexivity
    | reflexivity | reflexivity | lia].
Defined.

(** X11. The temporal queries read the current and the next object only:
    two triples with the same current and next addresses, in stores that
    agree on those two objects, answer [last], [start_time], [end_time],
    [is_between] and [is_visible_at] alike, whatever their previous
    objects are. *)
Theorem queries_ignore_prev
  (st st' : store) (p p' c n : loc) (d d' : DiffObject.t) :
  DiffObject.new st p c n = Value d ->
  DiffObject.new st' p' c n = Value d' ->
  st c = st' c ->
  st n = st' n ->
  DiffObject.last d = DiffObject.last d'
  /\ DiffObject.start_time st d = DiffObject.start_time st' d'
  /\ DiffObject.end_time st d = DiffObject.end_time st' d'
  /\ (forall from to : Timestamp,
        DiffObject.is_between st d from to
        = DiffObject.is_between st' d' from to)
  /\ (forall t : Timestamp,
        DiffObject.is_visible_at st d t = DiffObject.is_visible_at st' d' t).
Proof.
  intros H H' Ec En.
  apply new_Value in H as [_ ->]. apply new_Value in H' as [_ ->].
  split; [reflexivity|].
  rewrite !start_time_eq, !end_time_eq, Ec, En.
  split; [reflexivity|]. split; [reflexivity|].
  split; intros.
  - rewrite !is_between_eq, Ec, En. reflexivity.
  - rewrite !is_visible_at_eq, Ec, En. reflexivity.
Qed.

Lemma queries_ignore_prev_witness :
  DiffObject.new chain a1 a2 a3 = Value at_v2
  /\ DiffObject.new chain a2 a2 a3
     = Value (DiffObject.mk (Some a2) (Some a2) (Some a3))
  /\ DiffObject.last at_v2
     = DiffObject.last (DiffObject.mk (Some a2) (Some a2) (Some a3))
  /\ DiffObject.start_time chain at_v2
     = DiffObject.start_time chain (DiffObject.mk (Some a2) (Some a2) (Some a3))
  /\ DiffObject.end_time chain at_v2
     = DiffObject.end_time chain (DiffObject.mk (Some a2) (Some a2) (Some a3))
  /\ (forall from to : Timestamp,
        DiffObject.is_between chain at_v2 from to
        = DiffObject.is_between chain
            (DiffObject.mk (Some a2) (Some a2) (Some a3)) from to)
  /\ (forall t : Timestamp,
        DiffObject.is_visible_at chain at_v2 t
        = DiffObject.is_visible_at chain
            (DiffObject.mk (Some a2) (Some a2) (Some a3)) t).
Proof.
  split; [reflexivity|]. split; [reflexivity|].
  apply (queries_ignore_prev chain chain a1 a2 a2 a3); reflexivity.
Defined.

(** X12. The instants at which a version is visible form an interval: a
    version visible at [t1] and at [t2] is visible at every instant
    between them. *)
Theorem visible_between_visible
  (st : store) (p c n : loc) (d : DiffObject.t) (t1 t2 t : Timestamp) :
  DiffObject.new st p c n = Value d ->
  DiffObject.is_visible_at st d t1 = Value true ->
  DiffObject.is_visible_at st d t2 = Value true ->
  t1 <= t <= t2 ->
  DiffObject.is_visible_at st d t = Value true.
Proof.
  intros H V1 V2 Ht.
  destruct (times_exist st p c n d H) as [s [e [Hs He]]].
  apply (is_visible_at_true_iff st p c n d s e t1 H Hs He) in V1.
  apply (is_visible_at_true_iff st p c n d s e t2 H Hs He) in V2.
  apply (is_visible_at_true_iff st p c n d s e t H Hs He).
  repeat split; try tauto; lia.
Qed.

Lemma visible_between_visible_witness :
  DiffObject.new chain a1 a1 a2 = Value at_v1
  /\ DiffObject.is_visible_at chain at_v1 100 = Value true
  /\ DiffObject.is_visible_at chain at_v1 149 = Value true
  /\ 100 <= 120 <= 149
  /\ DiffObject.is_visible_at chain at_v1 120 = Value true.
Proof.
  split; [reflexivity|]. split; [reflexivity|]. split; [reflexivity|].
  split; [lia|].
  apply (visible_between_visible chain a1 a1 a2 at_v1 100 149 120);
    [reflexivity | reflexivity | reflexivity | lia].
Defined.

(** X13. A typed view over three objects that all carry the tag [K] can be
    constructed exactly when their ids agree (the type assertion cannot
    fail), and its inherited [type()] then returns [K]. *)
Theorem typed_view_of_kind
  (K : item_type) (st : store) (p c n : typed_ref K) :
  OSMObject.type (st (ref_loc p)) = K ->
  OSMObject.type (st (ref_loc c)) = K ->
  OSMObject.type (st (ref_loc n)) = K ->
  (returns (DiffObjectDerived.new st p c n) = true <->
   OSMObject.id (st (ref_loc p)) = OSMObject.id (st (ref_loc c))
   /\ OSMObject.id (st (ref_loc c)) = OSMObject.id (st (ref_loc n)))
  /\ forall dd : DiffObjectDerived.t K,
       DiffObjectDerived.new st p c n = Value dd ->
       DiffObjectDerived.inherited (DiffObject.type st) dd = Value K.
Proof.
  intros Tp Tc Tn. split.
  - apply derived_new_well_typed; assumption.
  - intros dd H. apply derived_new_Value, new_Value in H as [_ B].
    unfold DiffObjectDerived.inherited. rewrite B. cbn. rewrite Tc.
    reflexivity.
Qed.

Lemma typed_view_of_kind_witness :
  OSMObject.type (chain a1) = node
  /\ OSMObject.type (chain a2) = node
  /\ OSMObject.type (chain a3) = node
  /\ (returns (DiffObjectDerived.new (K := node) chain
                 (narrow a1) (narrow a2) (narrow a3)) = true <->
      OSMObject.id (chain a1) = OSMObject.id (chain a2)
      /\ OSMObject.id (chain a2) = OSMObject.id (chain a3))
  /\ forall dd : DiffObjectDerived.t node,
       DiffObjectDerived.new chain (narrow a1) (narrow a2) (narrow a3)
       = Value dd ->
       DiffObjectDerived.inherited (DiffObject.type chain) dd = Value node.
Proof.
  split; [reflexivity|]. split; [reflexivity|]. split; [reflexivity|].
  apply (typed_view_of_kind node chain (narrow a1) (narrow a2) (narrow a3));
    reflexivity.
Defined.

(** X14. [empty()] looks at [m_prev] alone, the member functions assert all
    three pointers; on every triple that came out of a constructor the two
    agree, so each member function returns exactly when [empty()] is
    false. *)
Theorem empty_guards_member_functions
  (st : store) (d : DiffObject.t) (from to t : Timestamp) :
  constructed st d ->
  returns (DiffObject.prev d) = negb (DiffObject.empty d)
  /\ returns (DiffObject.curr d) = negb (DiffObject.empty d)
  /\ returns (DiffObject.next d) = negb (DiffObject.empty d)
  /\ returns (DiffObject.first d) = negb (DiffObject.empty d)
  /\ returns (DiffObject.last d) = negb (DiffObject.empty d)
  /\ returns (DiffObject.type st d) = negb (DiffObject.empty d)
  /\ returns (DiffObject.id st d) = negb (DiffObject.empty d)
  /\ returns (DiffObject.version st d) = negb (DiffObject.empty d)
  /\ returns (DiffObject.changeset st d) = negb (DiffObject.empty d)
  /\ returns (DiffObject.start_time st d) = negb (DiffObject.empty d)
  /\ returns (DiffObject.end_time st d) = negb (DiffObject.empty d)
  /\ returns (DiffObject.is_between st d from to) = negb (DiffObject.empty d)
  /\ returns (DiffObject.is_visible_at st d t) = negb (DiffObject.empty d).
Proof.
  intro C.
  destruct (constructed_pointers st d C) as [-> | [p [c [n ->]]]].
  - repeat split.
  - rewrite is_between_eq, is_visible_at_eq. repeat split.
Qed.

Lemma empty_guards_member_functions_witness :
  constructed chain at_v2
  /\ DiffObject.empty at_v2 = false
  /\ returns (DiffObject.is_between chain at_v2 150 151)
     = negb (DiffObject.empty at_v2)
  /\ returns (DiffObject.is_between chain DiffObject.default 150 151)
     = negb (DiffObject.empty DiffObject.default).
Proof.
  assert (C : constructed chain at_v2)
    by (apply (constructed_from chain a1 a2 a3); reflexivity).
  split; [exact C|]. split; [reflexivity|].
  split.
  - apply (empty_guards_member_functions chain at_v2 150 151 0 C).
  - apply (empty_guards_member_functions chain DiffObject.default 150 151 0).
    apply constructed_default.
Defined.

(** X15. The last version is open-ended: it overlaps every query that ends
    after its start and begins before the end of time, and, when its
    current object is visible, it is visible at every instant from its
    start up to the end of time, whatever timestamp its objects carry
    otherwise. *)
Theorem last_version_open_ended
  (st : store) (p c n : loc) (d : DiffObject.t) (s : Timestamp) :
  DiffObject.new st p c n = Value d ->
  DiffObject.last d = Value true ->
  DiffObject.start_time st d = Value s ->
  (forall from to : Timestamp,
     s < to -> from < end_of_time ->
     DiffObject.is_between st d from to = Value true)
  /\ (forall t : Timestamp,
        OSMObject.visible (st c) = true ->
        s <= t < end_of_time ->
        DiffObject.is_visible_at st d t = Value true).
Proof.
  intros H L Hs.
  assert (He : DiffObject.end_time st d = Value end_of_time).
  { pose proof H as K. apply new_Value in K as [_ ->].
    cbn in L. injection L as L. rewrite end_time_eq, L. reflexivity. }
  split.
  - intros from to A B.
    apply (is_between_true_iff st p c n d s end_of_time from to H Hs He).
    lia.
  - intros t V A.
    apply (is_visible_at_true_iff st p c n d s end_of_time t H Hs He).
    repeat split; try assumption; lia.
Qed.

Lemma last_version_open_ended_witness :
  DiffObject.new chain a1 a1 a1
  = Value (DiffObject.mk (Some a1) (Some a1) (Some a1))
  /\ DiffObject.last (DiffObject.mk (Some a1) (Some a1) (Some a1)) = Value true
  /\ DiffObject.start_time chain (DiffObject.mk (Some a1) (Some a1) (Some a1))
     = Value 100
  /\ (forall from to : Timestamp,
        100 < to -> from < end_of_time ->
        DiffObject.is_between chain
          (DiffObject.mk (Some a1) (Some a1) (Some a1)) from to = Value true)
  /\ (forall t : Timestamp,
        OSMObject.visible (chain a1) = true ->
        100 <= t < end_of_time ->
        DiffObject.is_visible_at chain
          (DiffObject.mk (Some a1) (Some a1) (Some a1)) t = Value true).
Proof.
  split; [reflexivity|]. split; [reflexivity|]. split; [reflexivity|].
  apply (last_version_open_ended chain a1 a1 a1
           (DiffObject.mk (Some a1) (Some a1) (Some a1)) 100);
    reflexivity.
Defined.
